(** * convert_to_pdf.py: markdown guide to printable HTML

    A shallow embedding of [convert_to_pdf.py] and the properties of its
    read / render / wrap / write pipeline.

    - Text is [string] (a sequence of bytes); a file opened in text mode
      holds a [string], the platform's encoding and newline translation
      being outside the model.
    - The f-string literal of lines 13-102 is kept as its source text and
      evaluated by a small model of Python's f-string rules.
    - [markdown.markdown] is the third-party Python-Markdown renderer: it is
      a parameter of the development.
    - The filesystem is a finite map from paths to files with permission
      bits; the script is a computation in a state-and-exception monad.
    - [main] is the script where an open file and standard output take
      everything; [main_with] is the script under conditions where reading,
      writing or printing fail. *)

From Stdlib Require Import Ascii String Bool Arith Lia.
From stdpp Require Import base option list strings gmap.

(* ===================================================================== *)
(** * Text helpers *)
(* ===================================================================== *)

Module Text.

Local Open Scope char_scope.

(** The newline and the double-quote characters. *)
Definition nl : ascii := "010".
Definition dq : ascii := "034".

Definition NL : string := String nl EmptyString.
Definition DQ : string := String dq EmptyString.

(** [str.startswith]: [pat] is a prefix of [s]. *)
Fixpoint starts_with (pat s : string) : bool :=
  match pat with
  | EmptyString => true
  | String p pat' =>
      match s with
      | EmptyString => false
      | String c s' => Ascii.eqb p c && starts_with pat' s'
      end
  end.

(** [str.endswith]: [pat] is a suffix of [s]. *)
Fixpoint ends_with (pat s : string) : bool :=
  String.eqb pat s
  || match s with
     | EmptyString => false
     | String _ s' => ends_with pat s'
     end.

(** Number of positions of [s] at which [pat] starts.  For a pattern that
    cannot overlap itself, as [<body>], this is Python's [s.count(pat)]. *)
Fixpoint occurrences (pat s : string) : nat :=
  (if starts_with pat s then 1 else 0)
  + match s with
    | EmptyString => 0
    | String _ s' => occurrences pat s'
    end.

(** [pat in s]. *)
Definition contains (pat s : string) : bool :=
  negb (Nat.eqb (occurrences pat s) 0).

(** [c] occurs in [s]. *)
Fixpoint has_char (c : ascii) (s : string) : bool :=
  match s with
  | EmptyString => false
  | String d s' => Ascii.eqb c d || has_char c s'
  end.

(** The lines of a text, each one preceded by a newline. *)
Fixpoint unlines_before (ls : list string) : string :=
  match ls with
  | [] => EmptyString
  | l :: ls' => NL +:+ l +:+ unlines_before ls'
  end.

End Text.

Import Text.

(* ===================================================================== *)
(** * Exceptions and results *)
(* ===================================================================== *)

(** The exceptions of the model.  [FileNotFoundError] and
    [PermissionError] are subclasses of [OSError], the file-access errors;
    [OSError] itself stands for a device that refuses data.  The two
    Unicode errors are subclasses of [ValueError]. *)
Inductive exn : Type :=
| FileNotFoundError (path : string)
| PermissionError (path : string)
| OSError (path : string)
| UnicodeDecodeError
| UnicodeEncodeError
| NameError (name : string)
| SyntaxError.

Definition is_file_access_error (e : exn) : bool :=
  match e with
  | FileNotFoundError _ | PermissionError _ | OSError _ => true
  | UnicodeDecodeError | UnicodeEncodeError | NameError _ | SyntaxError => false
  end.

Inductive result (A : Type) : Type :=
| Ok (a : A)
| Raised (e : exn).

Arguments Ok {A} a.
Arguments Raised {A} e.

(* ===================================================================== *)
(** * Formatted string literals *)
(* ===================================================================== *)

Module FString.

Local Open Scope char_scope.

(** An f-string is compiled to literal pieces and replacement fields. *)
Inductive piece : Type :=
| Literal (text : string)
| Replacement (expr : string).

(** Puts one more literal character in front of the parsed pieces. *)
Definition cons_char (c : ascii) (ps : list piece) : list piece :=
  match ps with
  | Literal text :: ps' => Literal (String c text) :: ps'
  | _ => Literal (String c EmptyString) :: ps
  end.

(** The scanner.  [field] is [None] in literal text and [Some e] inside a
    replacement field whose expression read so far is [e].  In literal
    text [{{] and [}}] stand for one brace, a single [{] opens a field and
    a single [}] is a syntax error; a field runs to the next [}].  Nested
    braces, conversions and format specifications do not occur in the
    script and are rejected. *)
Fixpoint parse (field : option string) (s : string) : option (list piece) :=
  match field, s with
  | None, EmptyString => Some []
  | Some _, EmptyString => None
  | Some e, String c rest =>
      if Ascii.eqb c "}" then
        match e with
        | EmptyString => None
        | _ => cons (Replacement e) <$> parse None rest
        end
      else if Ascii.eqb c "{" || Ascii.eqb c "!" || Ascii.eqb c ":" then None
      else parse (Some (e +:+ String c EmptyString)) rest
  | None, String c rest =>
      if Ascii.eqb c "{" then
        match rest with
        | String "{" rest' => cons_char "{" <$> parse None rest'
        | _ => parse (Some EmptyString) rest
        end
      else if Ascii.eqb c "}" then
        match rest with
        | String "}" rest' => cons_char "}" <$> parse None rest'
        | _ => None
        end
      else cons_char c <$> parse None rest
  end.

(** Evaluation joins the pieces; a replacement field is a variable, looked
    up in the environment, and the value of a [str] is formatted as
    itself. *)
Fixpoint join (env : gmap string string) (ps : list piece) : result string :=
  match ps with
  | [] => Ok EmptyString
  | Literal text :: ps' =>
      match join env ps' with
      | Ok r => Ok (text +:+ r)
      | Raised e => Raised e
      end
  | Replacement x :: ps' =>
      match env !! x with
      | None => Raised (NameError x)
      | Some v =>
          match join env ps' with
          | Ok r => Ok (v +:+ r)
          | Raised e => Raised e
          end
      end
  end.

Definition eval (src : string) (env : gmap string string) : result string :=
  match parse None src with
  | None => Raised SyntaxError
  | Some ps => join env ps
  end.

End FString.

(* ===================================================================== *)
(** * The document template (lines 13-102) *)
(* ===================================================================== *)

Module Template.

(** The text between the triple quotes of the f-string, line by line as
    in the script.  The literal opens with a line break (line 13 ends
    right after the quotes) and closes with one (line 102 holds only the
    closing quotes). *)

(** Lines 14-18: document type, [<html>], [<head>], character set, title. *)
Definition head_source : list string :=
  [ "<!DOCTYPE html>"
  ; "<html>"
  ; "<head>"
  ; ("    <meta charset=" +:+ DQ +:+ "UTF-8" +:+ DQ +:+ ">")
  ; "    <title>PWA Deployment & Usage Guide</title>"
  ].

(** Lines 19-96: the style element, every brace doubled. *)
Definition style_source : list string :=
  [ "    <style>"
  ; "        @page {{"
  ; "            size: A4;"
  ; "            margin: 2cm;"
  ; "        }}"
  ; "        body {{"
  ; "            font-family: -apple-system, BlinkMacSystemFont, 'Segoe UI', Arial, sans-serif;"
  ; "            line-height: 1.6;"
  ; "            color: #333;"
  ; "            max-width: 800px;"
  ; "            margin: 0 auto;"
  ; "            padding: 20px;"
  ; "        }}"
  ; "        h1 {{"
  ; "            color: #2c3e50;"
  ; "            border-bottom: 3px solid #3498db;"
  ; "            padding-bottom: 10px;"
  ; "            margin-top: 30px;"
  ; "        }}"
  ; "        h2 {{"
  ; "            color: #34495e;"
  ; "            border-bottom: 2px solid #95a5a6;"
  ; "            padding-bottom: 8px;"
  ; "            margin-top: 25px;"
  ; "        }}"
  ; "        h3 {{"
  ; "            color: #555;"
  ; "            margin-top: 20px;"
  ; "        }}"
  ; "        code {{"
  ; "            background: #f4f4f4;"
  ; "            padding: 2px 6px;"
  ; "            border-radius: 3px;"
  ; "            font-family: 'Monaco', 'Courier New', monospace;"
  ; "            font-size: 0.9em;"
  ; "        }}"
  ; "        pre {{"
  ; "            background: #2c3e50;"
  ; "            color: #ecf0f1;"
  ; "            padding: 15px;"
  ; "            border-radius: 5px;"
  ; "            overflow-x: auto;"
  ; "        }}"
  ; "        pre code {{"
  ; "            background: transparent;"
  ; "            color: #ecf0f1;"
  ; "            padding: 0;"
  ; "        }}"
  ; "        ul, ol {{"
  ; "            margin: 10px 0;"
  ; "            padding-left: 30px;"
  ; "        }}"
  ; "        li {{"
  ; "            margin: 5px 0;"
  ; "        }}"
  ; "        blockquote {{"
  ; "            border-left: 4px solid #3498db;"
  ; "            padding-left: 15px;"
  ; "            margin: 15px 0;"
  ; "            color: #555;"
  ; "        }}"
  ; "        hr {{"
  ; "            border: none;"
  ; "            border-top: 2px solid #ecf0f1;"
  ; "            margin: 30px 0;"
  ; "        }}"
  ; "        @media print {{"
  ; "            body {{"
  ; "                max-width: 100%;"
  ; "            }}"
  ; "            h1, h2, h3 {{"
  ; "                page-break-after: avoid;"
  ; "            }}"
  ; "            pre, blockquote {{"
  ; "                page-break-inside: avoid;"
  ; "            }}"
  ; "        }}"
  ; "    </style>"
  ].

(** Lines 97-101: the body with its one replacement field. *)
Definition body_source : list string :=
  [ "</head>"
  ; "<body>"
  ; "{html_content}"
  ; "</body>"
  ; "</html>"
  ].

Definition source : string :=
  unlines_before (head_source ++ style_source ++ body_source) +:+ NL.

(** The style element as it is meant to reach the browser: lines 19-96
    with single braces. *)

Definition style_lines : list string :=
  [ "    <style>"
  ; "        @page {"
  ; "            size: A4;"
  ; "            margin: 2cm;"
  ; "        }"
  ; "        body {"
  ; "            font-family: -apple-system, BlinkMacSystemFont, 'Segoe UI', Arial, sans-serif;"
  ; "            line-height: 1.6;"
  ; "            color: #333;"
  ; "            max-width: 800px;"
  ; "            margin: 0 auto;"
  ; "            padding: 20px;"
  ; "        }"
  ; "        h1 {"
  ; "            color: #2c3e50;"
  ; "            border-bottom: 3px solid #3498db;"
  ; "            padding-bottom: 10px;"
  ; "            margin-top: 30px;"
  ; "        }"
  ; "        h2 {"
  ; "            color: #34495e;"
  ; "            border-bottom: 2px solid #95a5a6;"
  ; "            padding-bottom: 8px;"
  ; "            margin-top: 25px;"
  ; "        }"
  ; "        h3 {"
  ; "            color: #555;"
  ; "            margin-top: 20px;"
  ; "        }"
  ; "        code {"
  ; "            background: #f4f4f4;"
  ; "            padding: 2px 6px;"
  ; "            border-radius: 3px;"
  ; "            font-family: 'Monaco', 'Courier New', monospace;"
  ; "            font-size: 0.9em;"
  ; "        }"
  ; "        pre {"
  ; "            background: #2c3e50;"
  ; "            color: #ecf0f1;"
  ; "            padding: 15px;"
  ; "            border-radius: 5px;"
  ; "            overflow-x: auto;"
  ; "        }"
  ; "        pre code {"
  ; "            background: transparent;"
  ; "            color: #ecf0f1;"
  ; "            padding: 0;"
  ; "        }"
  ; "        ul, ol {"
  ; "            margin: 10px 0;"
  ; "            padding-left: 30px;"
  ; "        }"
  ; "        li {"
  ; "            margin: 5px 0;"
  ; "        }"
  ; "        blockquote {"
  ; "            border-left: 4px solid #3498db;"
  ; "            padding-left: 15px;"
  ; "            margin: 15px 0;"
  ; "            color: #555;"
  ; "        }"
  ; "        hr {"
  ; "            border: none;"
  ; "            border-top: 2px solid #ecf0f1;"
  ; "            margin: 30px 0;"
  ; "        }"
  ; "        @media print {"
  ; "            body {"
  ; "                max-width: 100%;"
  ; "            }"
  ; "            h1, h2, h3 {"
  ; "                page-break-after: avoid;"
  ; "            }"
  ; "            pre, blockquote {"
  ; "                page-break-inside: avoid;"
  ; "            }"
  ; "        }"
  ; "    </style>"
  ].

Definition style_block : string :=
  String.concat NL style_lines.

(** The page rule of lines 20-23, as the four lines it is written on. *)
Definition page_rule : string :=
  String.concat NL
    [ "        @page {"
    ; "            size: A4;"
    ; "            margin: 2cm;"
    ; "        }"
    ].

(** The same rule written on one line. *)
Definition page_rule_one_line : string :=
  "@page { size: A4; margin: 2cm; }".

(** What precedes and what follows the replacement field. *)
Definition shell_head : string :=
  unlines_before (head_source ++ style_lines ++ ["</head>"; "<body>"]) +:+ NL.

Definition shell_tail : string :=
  unlines_before ["</body>"; "</html>"] +:+ NL.

(** The template up to, and without, the line break that precedes the
    replacement field: it ends with the [<body>] tag. *)
Definition up_to_body_tag : string :=
  unlines_before (head_source ++ style_lines ++ ["</head>"; "<body>"]).

(** The template before the [<body>] tag. *)
Definition before_body_tag : string :=
  unlines_before (head_source ++ style_lines ++ ["</head>"]) +:+ NL.

(** The template after the line break that follows the field. *)
Definition after_field : string :=
  "</body>" +:+ NL +:+ "</html>" +:+ NL.

End Template.

(* ===================================================================== *)
(** * Files and the state of a run *)
(* ===================================================================== *)

(** A file of the working directory: its text and whether the process may
    read it and write it. *)
Record file : Type := File {
  content : string;
  readable : bool;
  writable : bool
}.

(** What a run can observe and change: the files of the current working
    directory by name, whether new files may be created in it, and the
    lines printed on standard output so far. *)
Record world : Type := World {
  files : gmap string file;
  cwd_writable : bool;
  stdout : list string
}.

Definition set_files (fs : gmap string file) (w : world) : world :=
  {| files := fs; cwd_writable := cwd_writable w; stdout := stdout w |}.

Definition add_stdout (line : string) (w : world) : world :=
  {| files := files w; cwd_writable := cwd_writable w;
     stdout := stdout w ++ [line] |}.

(** The text of a file, when there is one under that name. *)
Definition text_of (path : string) (w : world) : option string :=
  content <$> files w !! path.

(** Computations that read and change the world and may raise. *)
Definition M (A : Type) : Type := world -> result A * world.

#[global] Instance M_ret : MRet M := fun A a w => (Ok a, w).

#[global] Instance M_bind : MBind M := fun A B k m w =>
  match m w with
  | (Ok a, w') => k a w'
  | (Raised e, w') => (Raised e, w')
  end.

Definition lift {A : Type} (r : result A) : M A := fun w => (r, w).

(** ** The built-ins the script calls *)

Inductive mode : Type := ModeR | ModeW.

(** An open file object. *)
Record handle : Type := Handle { h_path : string; h_mode : mode }.

(** [open(path, 'r')] needs an existing, readable file.  [open(path, 'w')]
    needs a writable file, which it empties at once, or the right to create
    one, which starts empty. *)
Definition open (path : string) (m : mode) : M handle := fun w =>
  match m with
  | ModeR =>
      match files w !! path with
      | None => (Raised (FileNotFoundError path), w)
      | Some f =>
          if readable f then (Ok (Handle path ModeR), w)
          else (Raised (PermissionError path), w)
      end
  | ModeW =>
      match files w !! path with
      | None =>
          if cwd_writable w
          then (Ok (Handle path ModeW),
                set_files (<[path := File EmptyString true true]> (files w)) w)
          else (Raised (PermissionError path), w)
      | Some f =>
          if writable f
          then (Ok (Handle path ModeW),
                set_files (<[path := File EmptyString (readable f) true]> (files w)) w)
          else (Raised (PermissionError path), w)
      end
  end.

(** [f.read()]: the whole text. *)
Definition read (h : handle) : M string := fun w =>
  match files w !! h_path h with
  | Some f => (Ok (content f), w)
  | None => (Raised (FileNotFoundError (h_path h)), w)
  end.

(** [f.write(s)]: the whole buffer goes after what the file holds; the
    result is the number of characters written. *)
Definition write (h : handle) (s : string) : M nat := fun w =>
  match files w !! h_path h with
  | Some f =>
      (Ok (String.length s),
       set_files (<[h_path h := File (content f +:+ s) (readable f) (writable f)]> (files w)) w)
  | None => (Raised (FileNotFoundError (h_path h)), w)
  end.

(** Leaving a [with] block closes the file; every write has already
    reached it. *)
Definition close (h : handle) : M unit := mret tt.

(** [with open(path, m) as f: body]: the file is closed whether the body
    returns or raises. *)
Definition with_open {A : Type} (path : string) (m : mode) (body : handle -> M A) : M A :=
  fun w =>
    match open path m w with
    | (Raised e, w1) => (Raised e, w1)
    | (Ok h, w1) =>
        let '(r, w2) := body h w1 in
        let '(_, w3) := close h w2 in
        (r, w3)
    end.

Definition print (line : string) : M unit := fun w => (Ok tt, add_stdout line w).

(** The status the interpreter exits with: 0 when the script runs to its
    end, 1 when an exception is left unhandled. *)
Definition exit_status {A : Type} (r : result A) : nat :=
  match r with
  | Ok _ => 0
  | Raised _ => 1
  end.

(* ===================================================================== *)
(** * The script *)
(* ===================================================================== *)

Definition input_path : string := "PWA_DEPLOYMENT_GUIDE.md".
Definition output_path : string := "PWA_DEPLOYMENT_GUIDE_PRINTABLE.html".

(** The extension names of line 10. *)
Definition extensions : list string := ["fenced_code"; "tables"].

(** Lines 13-102: the f-string, with [html_content] in scope. *)
Definition styled_html (html_content : string) : result string :=
  FString.eval Template.source {["html_content" := html_content]}.

Definition created_line : string :=
  "✅ Created PWA_DEPLOYMENT_GUIDE_PRINTABLE.html".
Definition hint_line : string :=
  "📄 Open this file in your browser and use 'Print to PDF' (Cmd+P)".

Section Script.

(** [markdown.markdown(text, extensions=...)] of the Python-Markdown
    package. *)
Variable markdown : string -> list string -> string.

(** Line 10. *)
Definition html_content (md_content : string) : string :=
  markdown md_content extensions.

(** The module body, top to bottom. *)
Definition main : M unit :=
  md_content ← with_open input_path ModeR (fun f => read f);
  let html := html_content md_content in
  styled ← lift (styled_html html);
  _ ← with_open output_path ModeW (fun f => write f styled);
  _ ← print created_line;
  print hint_line.

End Script.

(* ===================================================================== *)
(** * Vocabulary of the properties *)
(* ===================================================================== *)

(** [open(path, 'r')] would succeed. *)
Definition can_read (path : string) (w : world) : bool :=
  match files w !! path with
  | Some f => readable f
  | None => false
  end.

(** [open(path, 'w')] would succeed. *)
Definition can_write (path : string) (w : world) : bool :=
  match files w !! path with
  | Some f => writable f
  | None => cwd_writable w
  end.

(** The shell of the template around a fragment. *)
Definition document (fragment : string) : string :=
  Template.shell_head +:+ fragment +:+ Template.shell_tail.

(** The world a successful run leaves: the output file holds [doc], keeping
    its read permission [r] when it was there before, and the two status
    lines are printed. *)
Definition after_success (doc : string) (r : bool) (w : world) : world :=
  add_stdout hint_line
    (add_stdout created_line
       (set_files (<[output_path := File doc r true]> (files w)) w)).

(** The template-wrapping property in the words of the specification:
    one [<body>] tag, the fragment right after it, and the page rule
    spelled on one line. *)
Definition wrapped_as_specified (fragment doc : string) : Prop :=
  occurrences "<body>" doc = 1
  /\ contains ("<body>" +:+ fragment) doc = true
  /\ contains Template.page_rule_one_line doc = true.

(** ** Sample renderers and worlds *)

(** A renderer that makes one paragraph of the text and lets markup
    through. *)
Definition paragraph_renderer (text : string) (exts : list string) : string :=
  "<p>" +:+ text +:+ "</p>".

(** A renderer that looks at its extensions: it lets the text through as it
    is unless exactly the two extensions of the script are on. *)
Definition picky_renderer (text : string) (exts : list string) : string :=
  if decide (exts = ["fenced_code"; "tables"])
  then paragraph_renderer text exts
  else text.

(** A directory with a readable guide and no output yet. *)
Definition fresh_world (md : string) : world :=
  World {[ input_path := File md true true ]} true [].

(** A directory with an output of an earlier run and no guide. *)
Definition world_without_guide : world :=
  World {[ output_path := File "earlier output" true true ]} true [].

(** A directory with a readable guide and a read-only output. *)
Definition world_with_locked_output : world :=
  World {[ input_path := File "Hello" true true;
           output_path := File "earlier output" true false ]} true [].


(** ** What can go wrong on an open file and on standard output *)

(** The conditions of a run that are not in the files' names and
    permissions:
    - whether the bytes of the guide are text in the platform's encoding;
      if not, [f.read()] raises [UnicodeDecodeError];
    - whether the device takes the whole buffer; if it stops after some
      characters (disk full, file too large), the write, or the flush when
      the file is closed, raises [OSError];
    - which lines standard output can encode; for a line it cannot,
      [print] raises [UnicodeEncodeError] and prints nothing of it. *)
Record faults : Type := Faults {
  text_decodes : bool;
  write_stops_after : option nat;
  stdout_encodes : string -> bool
}.

(** Nothing goes wrong. *)
Definition no_faults : faults := Faults true None (fun _ => true).

(** [f.read()] under these conditions. *)
Definition read_with (fl : faults) (h : handle) : M string := fun w =>
  if text_decodes fl then read h w else (Raised UnicodeDecodeError, w).

(** What reaches the file of a buffer [s]. *)
Definition reaches_file (fl : faults) (s : string) : string :=
  match write_stops_after fl with
  | None => s
  | Some n => String.substring 0 n s
  end.

(** [f.write(s)] under these conditions: what the device takes is in the
    file when the error is raised. *)
Definition write_with (fl : faults) (h : handle) (s : string) : M nat := fun w =>
  match write_stops_after fl with
  | None => write h s w
  | Some n =>
      match write h (String.substring 0 n s) w with
      | (Ok _, w') => (Raised (OSError (h_path h)), w')
      | (Raised e, w') => (Raised e, w')
      end
  end.

(** [print(line)] under these conditions. *)
Definition print_with (fl : faults) (line : string) : M unit := fun w =>
  if stdout_encodes fl line then print line w
  else (Raised UnicodeEncodeError, w).

Section ScriptWithFaults.

Variable fl : faults.
Variable markdown : string -> list string -> string.

(** The module body again, top to bottom, with the built-ins that can fail
    on an open file or on standard output. *)
Definition main_with : M unit :=
  md_content ← with_open input_path ModeR (fun f => read_with fl f);
  let html := html_content markdown md_content in
  styled ← lift (styled_html html);
  _ ← with_open output_path ModeW (fun f => write_with fl f styled);
  _ ← print_with fl created_line;
  print_with fl hint_line.

End ScriptWithFaults.

(** The world once the output file holds [text]. *)
Definition written (text : string) (r : bool) (w : world) : world :=
  set_files (<[output_path := File text r true]> (files w)) w.

(** What the run does once the output file is open for writing. *)
Definition from_the_write (fl : faults) (doc : string) (r : bool) (w : world) :
    result unit * world :=
  match write_stops_after fl with
  | Some n => (Raised (OSError output_path), written (String.substring 0 n doc) r w)
  | None =>
      if stdout_encodes fl created_line then
        if stdout_encodes fl hint_line then (Ok tt, after_success doc r w)
        else (Raised UnicodeEncodeError, add_stdout created_line (written doc r w))
      else (Raised UnicodeEncodeError, written doc r w)
  end.

(** A directory with a readable guide and a writable output of an earlier
    run. *)
Definition world_with_earlier_output : world :=
  World {[ input_path := File "Hello" true true;
           output_path := File "earlier output" true true ]} true [].

(** The device takes nothing: the disk is full. *)
Definition disk_full : faults := Faults true (Some 0) (fun _ => true).

(** Every byte of the text is below 128. *)
Fixpoint is_ascii_text (s : string) : bool :=
  match s with
  | EmptyString => true
  | String (Ascii _ _ _ _ _ _ _ high) s' => negb high && is_ascii_text s'
  end.

(** Standard output encodes ASCII only. *)
Definition ascii_stdout : faults := Faults true None is_ascii_text.

(** The guide is not text in the platform's encoding. *)
Definition undecodable_guide : faults := Faults false None (fun _ => true).

(* ===================================================================== *)
(** * Facts about text *)
(* ===================================================================== *)

Module TextFacts.

Lemma append_cons (x : ascii) (a b : string) :
  String x a +:+ b = String x (a +:+ b).
Proof. reflexivity. Qed.

Lemma append_empty_l (b : string) : EmptyString +:+ b = b.
Proof. reflexivity. Qed.

(** Unfolds the text functions one constructor deep. *)
Ltac step_text :=
  rewrite ?append_cons, ?append_empty_l;
  cbn [starts_with ends_with occurrences has_char].

Lemma append_assoc (a b c : string) : (a +:+ b) +:+ c = a +:+ (b +:+ c).
Proof. induction a as [|x a IH]; step_text; [reflexivity | now rewrite IH]. Qed.

Lemma append_empty_r (a : string) : a +:+ EmptyString = a.
Proof. induction a as [|x a IH]; step_text; [reflexivity | now rewrite IH]. Qed.

Lemma starts_with_append (pat s : string) : starts_with pat (pat +:+ s) = true.
Proof.
  induction pat as [|p pat IH]; step_text; [reflexivity|].
  now rewrite Ascii.eqb_refl, IH.
Qed.

(** A pattern without the character [c] cannot reach across a [c]. *)
Lemma starts_with_sep (c : ascii) (pat a b : string) :
  has_char c pat = false ->
  starts_with pat (a +:+ String c b) = starts_with pat a.
Proof.
  revert a. induction pat as [|p pat IH]; intros a Hc; [reflexivity|].
  cbn [has_char] in Hc. apply orb_false_elim in Hc as [Hp Hpat].
  destruct a as [|x a]; step_text.
  - rewrite Ascii.eqb_sym in Hp. now rewrite Hp.
  - now rewrite IH.
Qed.

(** Occurrences on the two sides of a separator that the pattern does not
    hold add up. *)
Lemma occurrences_sep (c : ascii) (pat a b : string) :
  pat <> EmptyString ->
  has_char c pat = false ->
  occurrences pat (a +:+ String c b) = occurrences pat a + occurrences pat b.
Proof.
  intros Hne Hc. induction a as [|x a IH].
  - destruct pat as [|p pat]; [congruence|].
    cbn [has_char] in Hc. apply orb_false_elim in Hc as [Hp _].
    step_text. rewrite Ascii.eqb_sym in Hp. now rewrite Hp.
  - pose proof (starts_with_sep c pat (String x a) b Hc) as Hx.
    rewrite append_cons in *. cbn [occurrences]. rewrite IH, Hx. lia.
Qed.

Lemma ends_with_append (pat a s : string) :
  ends_with pat s = true -> ends_with pat (a +:+ s) = true.
Proof.
  intros H. induction a as [|x a IH]; [exact H|].
  step_text. rewrite IH. apply orb_true_r.
Qed.

Lemma contains_occurrences (pat s : string) :
  contains pat s = true <-> 0 < occurrences pat s.
Proof.
  unfold contains. rewrite negb_true_iff, Nat.eqb_neq. lia.
Qed.

(** An occurrence counted by [occurrences] is a genuine substring. *)
Lemma starts_with_split (pat s : string) :
  starts_with pat s = true -> exists r, s = pat +:+ r.
Proof.
  revert s. induction pat as [|p pat IH]; intros s H.
  - now exists s.
  - destruct s as [|x s]; [discriminate|].
    cbn [starts_with] in H. apply andb_true_iff in H as [Hp Hs].
    apply Ascii.eqb_eq in Hp as ->.
    destruct (IH s Hs) as [r ->]. now exists r.
Qed.

Lemma contains_split (pat s : string) :
  contains pat s = true -> exists l r, s = l +:+ pat +:+ r.
Proof.
  rewrite contains_occurrences. induction s as [|x s IH]; cbn [occurrences].
  - destruct (starts_with pat EmptyString) eqn:E; [|lia].
    intros _. apply starts_with_split in E as [r E].
    exists EmptyString, r. exact E.
  - destruct (starts_with pat (String x s)) eqn:E.
    + intros _. apply starts_with_split in E as [r E].
      exists EmptyString, r. exact E.
    + intros H. destruct IH as (l & r & ->); [lia|].
      now exists (String x l), r.
Qed.

Lemma split_contains (pat l r : string) :
  contains pat (l +:+ pat +:+ r) = true.
Proof.
  rewrite contains_occurrences. induction l as [|x l IH].
  - rewrite append_empty_l. pose proof (starts_with_append pat r) as E.
    destruct (pat +:+ r); cbn [occurrences]; rewrite E; lia.
  - rewrite append_cons. cbn [occurrences]. lia.
Qed.

End TextFacts.

Import TextFacts.

(* ===================================================================== *)
(** * Facts about the template *)
(* ===================================================================== *)

Module TemplateFacts.

Import Template.

(** The f-string compiles to three pieces: the text before the field, the
    field, the text after it. *)
Lemma source_parses :
  FString.parse None source
  = Some [FString.Literal shell_head;
          FString.Replacement "html_content";
          FString.Literal shell_tail].
Proof. vm_compute. reflexivity. Qed.

(** Line 13-102 never raises: the value is the shell around the fragment,
    which is copied as it is. *)
Lemma styled_html_shell (html_content : string) :
  styled_html html_content = Ok (shell_head +:+ html_content +:+ shell_tail).
Proof.
  unfold styled_html, FString.eval. rewrite source_parses.
  cbn [FString.join]. rewrite lookup_singleton_eq.
  now rewrite append_empty_r.
Qed.

Lemma shell_head_ends_with_body_tag :
  shell_head = before_body_tag +:+ "<body>" +:+ NL.
Proof. vm_compute. reflexivity. Qed.

Lemma shell_head_holds_style_block :
  shell_head
  = (unlines_before head_source +:+ NL) +:+ style_block
    +:+ (NL +:+ "</head>" +:+ NL +:+ "<body>" +:+ NL).
Proof. vm_compute. reflexivity. Qed.

Lemma style_block_holds_page_rule :
  style_block
  = ("    <style>" +:+ NL) +:+ page_rule
    +:+ (NL +:+ String.concat NL (drop 5 style_lines)).
Proof. vm_compute. reflexivity. Qed.

(** The style element of the document is what lines 19-96 of the f-string
    denote. *)
Lemma style_source_denotes_style_block :
  FString.eval (String.concat NL style_source) ∅ = Ok style_block.
Proof. vm_compute. reflexivity. Qed.


(** The document has one [<body>] tag of its own, and as many more as the
    fragment brings. *)
Lemma occurrences_body_tag (fragment : string) :
  occurrences "<body>" (shell_head +:+ fragment +:+ shell_tail)
  = 1 + occurrences "<body>" fragment.
Proof.
  change shell_head with (up_to_body_tag +:+ String nl EmptyString).
  rewrite append_assoc, append_cons, append_empty_l.
  rewrite occurrences_sep by (vm_compute; congruence).
  change shell_tail with (String nl after_field).
  rewrite occurrences_sep by (vm_compute; congruence).
  replace (occurrences "<body>" up_to_body_tag) with 1 by (vm_compute; reflexivity).
  replace (occurrences "<body>" after_field) with 0 by (vm_compute; reflexivity).
  lia.
Qed.

(** The one-line spelling of the page rule has no line break in it, so it
    occurs in the document as often as outside the line breaks around the
    fragment: in the shell never. *)
Lemma occurrences_page_rule_one_line (fragment : string) :
  occurrences page_rule_one_line (shell_head +:+ fragment +:+ shell_tail)
  = occurrences page_rule_one_line fragment.
Proof.
  change shell_head with (up_to_body_tag +:+ String nl EmptyString).
  rewrite append_assoc, append_cons, append_empty_l.
  rewrite occurrences_sep by (vm_compute; congruence).
  change shell_tail with (String nl after_field).
  rewrite occurrences_sep by (vm_compute; congruence).
  replace (occurrences page_rule_one_line up_to_body_tag) with 0 by (vm_compute; reflexivity).
  replace (occurrences page_rule_one_line after_field) with 0 by (vm_compute; reflexivity).
  lia.
Qed.

End TemplateFacts.

Import TemplateFacts.

(* ===================================================================== *)
(** * Facts about a run *)
(* ===================================================================== *)

Lemma bind_run {A B : Type} (m : M A) (k : A -> M B) (w : world) :
  (m ≫= k) w
  = match m w with
    | (Ok a, w') => k a w'
    | (Raised e, w') => (Raised e, w')
    end.
Proof. reflexivity. Qed.

(** Lines 6-7. *)
Lemma with_open_read (path : string) (w : world) :
  with_open path ModeR read w
  = match files w !! path with
    | None => (Raised (FileNotFoundError path), w)
    | Some f =>
        if readable f then (Ok (content f), w)
        else (Raised (PermissionError path), w)
    end.
Proof.
  unfold with_open, open, read.
  destruct (files w !! path) as [f|] eqn:E; [|reflexivity].
  destruct (readable f); [|reflexivity].
  cbn [h_path]. now rewrite E.
Qed.

(** Lines 105-106: the file is emptied, then filled with the buffer. *)
Lemma with_open_write (path s : string) (w : world) :
  with_open path ModeW (fun f => write f s) w
  = match files w !! path with
    | None =>
        if cwd_writable w
        then (Ok (String.length s),
              set_files (<[path := File s true true]> (files w)) w)
        else (Raised (PermissionError path), w)
    | Some f =>
        if writable f
        then (Ok (String.length s),
              set_files (<[path := File s (readable f) true]> (files w)) w)
        else (Raised (PermissionError path), w)
    end.
Proof.
  unfold with_open, open, write.
  destruct (files w !! path) as [f|] eqn:E.
  - destruct (writable f); [|reflexivity].
    cbn [h_path files set_files]. rewrite lookup_insert_eq.
    cbn [content readable writable close mret M_ret].
    now rewrite insert_insert_eq, append_empty_l.
  - destruct (cwd_writable w); [|reflexivity].
    cbn [h_path files set_files]. rewrite lookup_insert_eq.
    cbn [content readable writable close mret M_ret].
    now rewrite insert_insert_eq, append_empty_l.
Qed.

Section RunFacts.

Variable markdown : string -> list string -> string.

(** Every way a run can go. *)
Lemma main_run (w : world) :
  main markdown w
  = match files w !! input_path with
    | None => (Raised (FileNotFoundError input_path), w)
    | Some f =>
        if readable f then
          let doc := document (markdown (content f) extensions) in
          match files w !! output_path with
          | None =>
              if cwd_writable w then (Ok tt, after_success doc true w)
              else (Raised (PermissionError output_path), w)
          | Some g =>
              if writable g then (Ok tt, after_success doc (readable g) w)
              else (Raised (PermissionError output_path), w)
          end
        else (Raised (PermissionError input_path), w)
    end.
Proof.
  unfold main. rewrite bind_run, with_open_read.
  destruct (files w !! input_path) as [f|]; [|reflexivity].
  destruct (readable f); [|reflexivity].
  cbv zeta. rewrite bind_run. unfold html_content, lift.
  rewrite styled_html_shell. fold (document (markdown (content f) extensions)).
  rewrite bind_run, with_open_write.
  destruct (files w !! output_path) as [g|].
  - destruct (writable g); reflexivity.
  - destruct (cwd_writable w); reflexivity.
Qed.

End RunFacts.

Section RunOutcomes.

Variable markdown : string -> list string -> string.

Lemma text_of_after_success (doc : string) (r : bool) (w : world) :
  text_of output_path (after_success doc r w) = Some doc.
Proof.
  unfold text_of, after_success. cbn [files add_stdout set_files].
  now rewrite lookup_insert_eq.
Qed.

Lemma files_after_success (doc : string) (r : bool) (w : world) :
  files (after_success doc r w) = <[output_path := File doc r true]> (files w).
Proof. reflexivity. Qed.


Lemma input_is_not_output : input_path <> output_path.
Proof. discriminate. Qed.

(** With a readable guide and a writable output the run succeeds and the
    output file holds the shell around the rendered guide. *)
Lemma main_writes_document (w : world) (f : file) :
  files w !! input_path = Some f ->
  readable f = true ->
  can_write output_path w = true ->
  exists r,
    main markdown w
    = (Ok tt, after_success (document (markdown (content f) extensions)) r w).
Proof.
  intros Hf Hr Hw. rewrite main_run, Hf, Hr. cbv zeta.
  unfold can_write in Hw.
  destruct (files w !! output_path) as [g|]; rewrite Hw; eauto.
Qed.

(** A run that raises leaves the world as it found it. *)
Lemma main_raises_unchanged (w w' : world) (e : exn) :
  main markdown w = (Raised e, w') -> w' = w.
Proof.
  rewrite main_run.
  destruct (files w !! input_path) as [f|]; [|congruence].
  destruct (readable f); [|congruence]. cbv zeta.
  destruct (files w !! output_path) as [g|].
  - destruct (writable g); congruence.
  - destruct (cwd_writable w); congruence.
Qed.

(** A run never touches a file other than the output. *)
Lemma main_keeps_other_files (w : world) (path : string) :
  path <> output_path ->
  files (snd (main markdown w)) !! path = files w !! path.
Proof.
  intros Hp. rewrite main_run.
  destruct (files w !! input_path) as [f|]; [|reflexivity].
  destruct (readable f); [|reflexivity]. cbv zeta.
  destruct (files w !! output_path) as [g|].
  - destruct (writable g); [|reflexivity].
    cbn [snd]. rewrite files_after_success. now apply lookup_insert_ne.
  - destruct (cwd_writable w); [|reflexivity].
    cbn [snd]. rewrite files_after_success. now apply lookup_insert_ne.
Qed.

End RunOutcomes.

(* ===================================================================== *)
(** * The template around the fragment *)
(* ===================================================================== *)

(** C1, as the specification states it, fails.  For the non-empty fragment
    [<body>] the document has two [<body>] tags, not one; the tag is
    followed by a line break, not by the fragment; and the page rule is
    spelled on four lines, so its one-line spelling is nowhere in the
    document. *)
Lemma template_wrapping_as_specified_fails :
  "<body>" <> EmptyString
  /\ styled_html "<body>" = Ok (document "<body>")
  /\ occurrences "<body>" (document "<body>") = 2
  /\ contains ("<body>" +:+ "<body>") (document "<body>") = false
  /\ contains Template.page_rule_one_line (document "<body>") = false
  /\ ~ wrapped_as_specified "<body>" (document "<body>").
Proof.
  split; [discriminate|].
  split; [apply styled_html_shell|].
  assert (H2 : occurrences "<body>" (document "<body>") = 2)
    by (vm_compute; reflexivity).
  split; [exact H2|].
  split; [vm_compute; reflexivity|].
  split; [vm_compute; reflexivity|].
  intros [H1 _]. rewrite H2 in H1. discriminate.
Qed.

(** C1, amended.  For every rendered fragment that holds no [<body>] tag
    (non-empty or not), the document the converter writes has exactly one
    [<body>] tag, which is followed by a line break and then by the
    fragment; the style element of the template is in the document
    unchanged, and it holds the page rule on the four lines of the
    template.  The one-line spelling of that rule occurs in the document
    only where the fragment has it. *)
Theorem template_wrapping (fragment : string) :
  occurrences "<body>" fragment = 0 ->
  styled_html fragment = Ok (document fragment)
  /\ occurrences "<body>" (document fragment) = 1
  /\ document fragment
     = Template.before_body_tag +:+ "<body>" +:+ NL +:+ fragment
       +:+ Template.shell_tail
  /\ occurrences "<body>" Template.before_body_tag = 0
  /\ document fragment
     = (unlines_before Template.head_source +:+ NL) +:+ Template.style_block
       +:+ (NL +:+ "</head>" +:+ NL +:+ "<body>" +:+ NL +:+ fragment
            +:+ Template.shell_tail)
  /\ FString.eval (String.concat NL Template.style_source) ∅
     = Ok Template.style_block
  /\ Template.style_block
     = ("    <style>" +:+ NL) +:+ Template.page_rule
       +:+ (NL +:+ String.concat NL (drop 5 Template.style_lines))
  /\ occurrences Template.page_rule_one_line (document fragment)
     = occurrences Template.page_rule_one_line fragment.
Proof.
  intros Hfrag.
  split; [apply styled_html_shell|].
  split; [unfold document; rewrite occurrences_body_tag, Hfrag; reflexivity|].
  split.
  { unfold document. rewrite shell_head_ends_with_body_tag.
    now rewrite !append_assoc. }
  split; [vm_compute; reflexivity|].
  split.
  { unfold document. rewrite shell_head_holds_style_block.
    now rewrite !append_assoc. }
  split; [apply style_source_denotes_style_block|].
  split; [apply style_block_holds_page_rule|].
  apply occurrences_page_rule_one_line.
Qed.

Lemma template_wrapping_witness :
  occurrences "<body>" "<p>Hi</p>" = 0
  /\ occurrences "<body>" (document "<p>Hi</p>") = 1.
Proof.
  split; [reflexivity|].
  exact (proj1 (proj2 (template_wrapping "<p>Hi</p>" eq_refl))).
Defined.

(* ===================================================================== *)
(** * Failures *)
(* ===================================================================== *)

Section Failures.

Variable markdown : string -> list string -> string.

(** C3.  If the guide [PWA_DEPLOYMENT_GUIDE.md] does not exist or may not be
    read, the run raises a file-access error ([FileNotFoundError] for a
    missing guide, [PermissionError] for an unreadable one), the exit
    status is not zero, and the world is left as it was: no file is
    written or changed, the output of an earlier run included, and nothing
    is printed. *)
Theorem missing_input_fails_cleanly (w : world) :
  can_read input_path w = false ->
  exists e,
    main markdown w = (Raised e, w)
    /\ e = match files w !! input_path with
           | None => FileNotFoundError input_path
           | Some _ => PermissionError input_path
           end
    /\ is_file_access_error e = true
    /\ exit_status (fst (main markdown w)) <> 0
    /\ files (snd (main markdown w)) !! output_path = files w !! output_path.
Proof.
  unfold can_read. intros Hr. rewrite main_run.
  destruct (files w !! input_path) as [f|].
  - rewrite Hr. exists (PermissionError input_path).
    repeat split; cbn; congruence.
  - exists (FileNotFoundError input_path).
    repeat split; cbn; congruence.
Qed.

End Failures.

Lemma missing_input_fails_cleanly_witness :
  can_read input_path world_without_guide = false
  /\ exists e,
       main paragraph_renderer world_without_guide = (Raised e, world_without_guide)
       /\ e = match files world_without_guide !! input_path with
              | None => FileNotFoundError input_path
              | Some _ => PermissionError input_path
              end
       /\ is_file_access_error e = true
       /\ exit_status (fst (main paragraph_renderer world_without_guide)) <> 0
       /\ files (snd (main paragraph_renderer world_without_guide)) !! output_path
          = files world_without_guide !! output_path.
Proof.
  split; [vm_compute; reflexivity|].
  apply (missing_input_fails_cleanly paragraph_renderer world_without_guide).
  vm_compute; reflexivity.
Defined.

(* ===================================================================== *)
(** * Successful runs *)
(* ===================================================================== *)

Section Success.

Variable markdown : string -> list string -> string.

(** After a successful run the guide is where it was and the output is
    writable, so the next run succeeds as well. *)
Lemma main_after_success (doc : string) (r : bool) (w : world) (f : file) :
  files w !! input_path = Some f ->
  readable f = true ->
  main markdown (after_success doc r w)
  = (Ok tt,
     after_success (document (markdown (content f) extensions)) r
       (after_success doc r w)).
Proof.
  intros Hf Hr. rewrite main_run, !files_after_success.
  rewrite lookup_insert_ne by (symmetry; apply input_is_not_output).
  rewrite Hf, Hr. cbv zeta. now rewrite lookup_insert_eq.
Qed.

(** C5.  A second run on the unchanged guide ends as the first did and
    leaves every file, the output among them, byte for byte as the first
    run left it; the first run does not change the guide. *)
Theorem second_run_writes_the_same (w : world) :
  let w1 := snd (main markdown w) in
  let w2 := snd (main markdown w1) in
  fst (main markdown w1) = fst (main markdown w)
  /\ text_of output_path w2 = text_of output_path w1
  /\ files w2 = files w1
  /\ text_of input_path w1 = text_of input_path w.
Proof.
  cbv zeta.
  assert (Hin : text_of input_path (snd (main markdown w)) = text_of input_path w).
  { unfold text_of. now rewrite main_keeps_other_files by apply input_is_not_output. }
  assert (Hfail : forall e, main markdown w = (Raised e, w) ->
            fst (main markdown (snd (main markdown w))) = fst (main markdown w)
            /\ files (snd (main markdown (snd (main markdown w))))
               = files (snd (main markdown w))).
  { intros e He. rewrite !He. cbn [snd fst]. now rewrite !He. }
  assert (Hok : forall f r,
            files w !! input_path = Some f -> readable f = true ->
            main markdown w
            = (Ok tt, after_success (document (markdown (content f) extensions)) r w) ->
            fst (main markdown (snd (main markdown w))) = fst (main markdown w)
            /\ files (snd (main markdown (snd (main markdown w))))
               = files (snd (main markdown w))).
  { intros f r Hf Hr Hm. rewrite !Hm. cbn [snd fst].
    rewrite (main_after_success _ r w f Hf Hr). cbn [snd fst].
    split; [reflexivity|].
    rewrite !files_after_success. apply insert_insert_eq. }
  assert (H : fst (main markdown (snd (main markdown w))) = fst (main markdown w)
              /\ files (snd (main markdown (snd (main markdown w))))
                 = files (snd (main markdown w))).
  { pose proof (main_run markdown w) as Hrun.
    destruct (files w !! input_path) as [f|] eqn:Hf; [|now apply Hfail in Hrun].
    destruct (readable f) eqn:Hr; [|now apply Hfail in Hrun].
    cbv zeta in Hrun.
    destruct (files w !! output_path) as [g|].
    - destruct (writable g); [now apply (Hok f _ eq_refl Hr) in Hrun|].
      now apply Hfail in Hrun.
    - destruct (cwd_writable w); [now apply (Hok f _ eq_refl Hr) in Hrun|].
      now apply Hfail in Hrun. }
  destruct H as [Hres Hfiles].
  split; [exact Hres|]. split; [|split; [exact Hfiles | exact Hin]].
  unfold text_of. now rewrite Hfiles.
Qed.

(** C9.  The rendered fragment goes into the document as it is, with no
    escaping and no check: the output file holds the shell of the template
    around the very text the renderer returned.  The document therefore
    has one [<body>] tag more than the fragment, and it has more than one
    exactly when the rendering of the guide holds a [<body>] tag, as it
    does when the renderer lets the raw HTML of a guide through. *)
Theorem raw_body_tag_is_repeated (w : world) (f : file) :
  files w !! input_path = Some f ->
  readable f = true ->
  can_write output_path w = true ->
  exists w' doc,
    main markdown w = (Ok tt, w')
    /\ text_of output_path w' = Some doc
    /\ doc = Template.shell_head +:+ html_content markdown (content f)
             +:+ Template.shell_tail
    /\ styled_html (html_content markdown (content f)) = Ok doc
    /\ occurrences "<body>" doc
       = 1 + occurrences "<body>" (html_content markdown (content f))
    /\ (1 < occurrences "<body>" doc
        <-> contains "<body>" (html_content markdown (content f)) = true).
Proof.
  intros Hf Hr Hw.
  destruct (main_writes_document markdown w f Hf Hr Hw) as [r Hmain].
  eexists. exists (document (html_content markdown (content f))).
  split; [exact Hmain|].
  split; [apply text_of_after_success|].
  split; [reflexivity|].
  split; [apply styled_html_shell|].
  unfold document. rewrite occurrences_body_tag, contains_occurrences.
  split; [reflexivity | lia].
Qed.

(** C10.  For every guide, the text the run writes to the output file
    begins with a line break followed by [<!DOCTYPE html>] and ends with
    [</html>] followed by a line break. *)
Theorem output_begins_and_ends_with_newline (w : world) (f : file) :
  files w !! input_path = Some f ->
  readable f = true ->
  can_write output_path w = true ->
  exists w' doc,
    main markdown w = (Ok tt, w')
    /\ styled_html (html_content markdown (content f)) = Ok doc
    /\ text_of output_path w' = Some doc
    /\ starts_with (NL +:+ "<!DOCTYPE html>") doc = true
    /\ ends_with ("</html>" +:+ NL) doc = true.
Proof.
  intros Hf Hr Hw.
  destruct (main_writes_document markdown w f Hf Hr Hw) as [r Hmain].
  eexists. exists (document (html_content markdown (content f))).
  split; [exact Hmain|].
  split; [apply styled_html_shell|].
  split; [apply text_of_after_success|].
  split; [vm_compute; reflexivity|].
  unfold document. do 2 apply ends_with_append. vm_compute; reflexivity.
Qed.


End Success.


Lemma raw_body_tag_is_repeated_witness :
  can_write output_path (fresh_world "<body>") = true
  /\ html_content paragraph_renderer "<body>" = "<p><body></p>"
  /\ exists w' doc,
       main paragraph_renderer (fresh_world "<body>") = (Ok tt, w')
       /\ text_of output_path w' = Some doc
       /\ 1 < occurrences "<body>" doc.
Proof.
  split; [vm_compute; reflexivity|].
  split; [vm_compute; reflexivity|].
  destruct (raw_body_tag_is_repeated paragraph_renderer (fresh_world "<body>")
              (File "<body>" true true))
    as (w' & doc & Hmain & Hout & _ & _ & _ & Hmore);
    [vm_compute; reflexivity | reflexivity | vm_compute; reflexivity |].
  exists w', doc. split; [exact Hmain|]. split; [exact Hout|].
  apply Hmore. vm_compute. reflexivity.
Defined.

Lemma output_begins_and_ends_with_newline_witness :
  can_write output_path (fresh_world "# Guide") = true
  /\ exists w' doc,
       main paragraph_renderer (fresh_world "# Guide") = (Ok tt, w')
       /\ styled_html (html_content paragraph_renderer "# Guide") = Ok doc
       /\ text_of output_path w' = Some doc
       /\ starts_with (NL +:+ "<!DOCTYPE html>") doc = true
       /\ ends_with ("</html>" +:+ NL) doc = true.
Proof.
  split; [vm_compute; reflexivity|].
  apply (output_begins_and_ends_with_newline paragraph_renderer
           (fresh_world "# Guide") (File "# Guide" true true));
    vm_compute; reflexivity.
Defined.

(* ===================================================================== *)
(** * The run as a whole *)
(* ===================================================================== *)

Section WholeRun.

Variable markdown : string -> list string -> string.

(** X4.  Whatever happens, a run changes no file other than
    [PWA_DEPLOYMENT_GUIDE_PRINTABLE.html]: the guide and every other file
    keep their text and their permissions, and the right to create files
    in the directory is as before. *)
Theorem run_changes_only_the_output_file (w : world) (path : string) :
  path <> output_path ->
  files (snd (main markdown w)) !! path = files w !! path
  /\ cwd_writable (snd (main markdown w)) = cwd_writable w.
Proof.
  intros Hp. split; [now apply main_keeps_other_files|].
  rewrite main_run.
  destruct (files w !! input_path) as [f|]; [|reflexivity].
  destruct (readable f); [|reflexivity]. cbv zeta.
  destruct (files w !! output_path) as [g|].
  - destruct (writable g); reflexivity.
  - destruct (cwd_writable w) eqn:Hcwd; [|exact Hcwd].
    cbn [snd after_success add_stdout set_files cwd_writable]. exact Hcwd.
Qed.


End WholeRun.

Lemma run_changes_only_the_output_file_witness :
  input_path <> output_path
  /\ files (snd (main paragraph_renderer (fresh_world "Hello"))) !! input_path
     = files (fresh_world "Hello") !! input_path.
Proof.
  split; [discriminate|].
  refine (proj1 (run_changes_only_the_output_file paragraph_renderer
                   (fresh_world "Hello") input_path _)).
  discriminate.
Defined.

(* ===================================================================== *)
(** * Getting the fragment back *)
(* ===================================================================== *)

Lemma length_append (a b : string) :
  String.length (a +:+ b) = String.length a + String.length b.
Proof.
  induction a as [|x a IH]; [reflexivity|].
  rewrite append_cons. cbn [String.length]. now rewrite IH.
Qed.

Lemma substring_whole_prefix (a b : string) :
  String.substring 0 (String.length a) (a +:+ b) = a.
Proof.
  induction a as [|x a IH].
  - rewrite append_empty_l. now destruct b.
  - rewrite append_cons. cbn [String.length String.substring]. now rewrite IH.
Qed.

Lemma substring_after_prefix (a b : string) (n : nat) :
  String.substring (String.length a) n (a +:+ b) = String.substring 0 n b.
Proof.
  induction a as [|x a IH]; [reflexivity|].
  rewrite append_cons. cbn [String.length String.substring]. exact IH.
Qed.

Lemma append_cancel_r (a b t : string) : a +:+ t = b +:+ t -> a = b.
Proof.
  intros H.
  assert (Hlen : String.length a = String.length b).
  { apply (f_equal String.length) in H. rewrite !length_append in H. lia. }
  rewrite <- (substring_whole_prefix a t), <- (substring_whole_prefix b t).
  now rewrite H, Hlen.
Qed.

Lemma Ok_inj {A : Type} (a b : A) : Ok a = Ok b -> a = b.
Proof. now intros [= ->]. Qed.

(** X6.  The template loses nothing of the fragment: the document is 2076
    characters longer than the fragment (2059 before it, 17 after it), the
    fragment is the slice of the document that starts at offset 2059, and
    no other fragment gives the same document. *)
Theorem fragment_is_recoverable (fragment : string) :
  exists doc,
    styled_html fragment = Ok doc
    /\ String.length doc = 2059 + String.length fragment + 17
    /\ String.substring 2059 (String.length fragment) doc = fragment
    /\ forall other : string, styled_html other = Ok doc -> other = fragment.
Proof.
  exists (document fragment).
  split; [apply styled_html_shell|].
  assert (Hhead : String.length Template.shell_head = 2059)
    by (vm_compute; reflexivity).
  assert (Htail : String.length Template.shell_tail = 17)
    by (vm_compute; reflexivity).
  unfold document. split; [|split].
  - rewrite !length_append, Hhead, Htail. lia.
  - rewrite <- Hhead, substring_after_prefix. apply substring_whole_prefix.
  - intros other. rewrite styled_html_shell. intros H.
    apply Ok_inj in H.
    apply (inj (String.append Template.shell_head)) in H.
    now apply append_cancel_r in H.
Qed.

(* ===================================================================== *)
(** * The shape of the document *)
(* ===================================================================== *)

(** The field stands on a line of its own, so a text without a line break
    occurs in the document as often as in the shell before the field, in
    the fragment and in the shell after the field together. *)
Lemma occurrences_in_document (pat fragment : string) :
  pat <> EmptyString ->
  has_char nl pat = false ->
  occurrences pat (document fragment)
  = occurrences pat Template.up_to_body_tag
    + occurrences pat fragment
    + occurrences pat Template.after_field.
Proof.
  intros Hne Hnl. unfold document.
  change Template.shell_head
    with (Template.up_to_body_tag +:+ String nl EmptyString).
  rewrite append_assoc, append_cons, append_empty_l.
  rewrite occurrences_sep by assumption.
  change Template.shell_tail with (String nl Template.after_field).
  rewrite occurrences_sep by assumption. lia.
Qed.

(** Solves a count of a fixed one-line text in the document of any
    fragment. *)
Ltac count_in_document :=
  rewrite occurrences_in_document by (vm_compute; congruence);
  vm_compute (occurrences _ Template.up_to_body_tag);
  vm_compute (occurrences _ Template.after_field);
  lia.

(** X8.  Around any fragment the shell is balanced: the document has, on
    top of what the fragment holds, exactly one opening and one closing
    tag of each of [html], [head], [title], [style] and [body], one
    document type line, and sixteen opening and sixteen closing braces in
    its style rules, none of them left doubled. *)
Theorem shell_is_balanced (fragment : string) :
  let adds (pat : string) (n : nat) :=
    occurrences pat (document fragment) = n + occurrences pat fragment in
  styled_html fragment = Ok (document fragment)
  /\ adds "<!DOCTYPE html>" 1
  /\ (adds "<html>" 1 /\ adds "</html>" 1)
  /\ (adds "<head>" 1 /\ adds "</head>" 1)
  /\ (adds "<title>" 1 /\ adds "</title>" 1)
  /\ (adds "<style>" 1 /\ adds "</style>" 1)
  /\ (adds "<body>" 1 /\ adds "</body>" 1)
  /\ (adds "{" 16 /\ adds "}" 16)
  /\ (adds "{{" 0 /\ adds "}}" 0).
Proof.
  cbv zeta. split; [apply styled_html_shell|].
  repeat split; count_in_document.
Qed.

(** X9.  The shell is self-contained: it has no link, script or import and
    no [href=], [src=], [url(] or [http] in it, so the document refers to
    an outside resource only where the fragment does. *)
Theorem shell_refers_to_nothing_outside (fragment : string) :
  styled_html fragment = Ok (document fragment)
  /\ Forall
       (fun pat : string =>
          occurrences pat (document fragment) = occurrences pat fragment)
       ["<link"; "<script"; "@import"; "href="; "src="; "url("; "http"].
Proof.
  split; [apply styled_html_shell|].
  repeat constructor; count_in_document.
Qed.

(* ===================================================================== *)
(** * Runs in which reading, writing or printing fails *)
(* ===================================================================== *)

(** Lines 6-7 when the bytes of the guide may not be text. *)
Lemma with_open_read_with (fl : faults) (path : string) (w : world) :
  with_open path ModeR (fun f => read_with fl f) w
  = match files w !! path with
    | None => (Raised (FileNotFoundError path), w)
    | Some f =>
        if readable f then
          if text_decodes fl then (Ok (content f), w)
          else (Raised UnicodeDecodeError, w)
        else (Raised (PermissionError path), w)
    end.
Proof.
  unfold with_open, open, read_with, read.
  destruct (files w !! path) as [f|] eqn:E; [|reflexivity].
  destruct (readable f); [|reflexivity].
  destruct (text_decodes fl); [|reflexivity].
  cbn [h_path]. now rewrite E.
Qed.

(** Lines 105-106 when the device may stop taking data: the file is
    emptied by [open] before anything is written. *)
Lemma with_open_write_with (fl : faults) (path s : string) (w : world) :
  with_open path ModeW (fun f => write_with fl f s) w
  = let outcome : result nat :=
      match write_stops_after fl with
      | None => Ok (String.length s)
      | Some n => Raised (OSError path)
      end in
    match files w !! path with
    | None =>
        if cwd_writable w
        then (outcome,
              set_files (<[path := File (reaches_file fl s) true true]> (files w)) w)
        else (Raised (PermissionError path), w)
    | Some f =>
        if writable f
        then (outcome,
              set_files (<[path := File (reaches_file fl s) (readable f) true]> (files w)) w)
        else (Raised (PermissionError path), w)
    end.
Proof.
  unfold with_open, open, write_with, write, reaches_file. cbv zeta.
  destruct (files w !! path) as [f|] eqn:E.
  - destruct (writable f); [|reflexivity].
    destruct (write_stops_after fl) as [n|];
      cbn [h_path files set_files]; rewrite lookup_insert_eq;
      cbn [content readable writable close mret M_ret];
      now rewrite insert_insert_eq, append_empty_l.
  - destruct (cwd_writable w); [|reflexivity].
    destruct (write_stops_after fl) as [n|];
      cbn [h_path files set_files]; rewrite lookup_insert_eq;
      cbn [content readable writable close mret M_ret];
      now rewrite insert_insert_eq, append_empty_l.
Qed.

Section FaultyRuns.

Variable fl : faults.
Variable markdown : string -> list string -> string.

(** Every way a run can go under the conditions [fl]. *)
Lemma main_with_run (w : world) :
  main_with fl markdown w
  = match files w !! input_path with
    | None => (Raised (FileNotFoundError input_path), w)
    | Some f =>
        if readable f then
          if text_decodes fl then
            let doc := document (markdown (content f) extensions) in
            match files w !! output_path with
            | None =>
                if cwd_writable w then from_the_write fl doc true w
                else (Raised (PermissionError output_path), w)
            | Some g =>
                if writable g then from_the_write fl doc (readable g) w
                else (Raised (PermissionError output_path), w)
            end
          else (Raised UnicodeDecodeError, w)
        else (Raised (PermissionError input_path), w)
    end.
Proof.
  unfold main_with. rewrite bind_run, with_open_read_with.
  destruct (files w !! input_path) as [f|]; [|reflexivity].
  destruct (readable f); [|reflexivity].
  destruct (text_decodes fl); [|reflexivity].
  cbv zeta. rewrite bind_run. unfold html_content, lift.
  rewrite styled_html_shell. fold (document (markdown (content f) extensions)).
  rewrite bind_run, with_open_write_with. cbv zeta.
  unfold from_the_write, reaches_file, print_with, written, after_success.
  destruct (files w !! output_path) as [g|].
  - destruct (writable g); [|reflexivity].
    destruct (write_stops_after fl); [reflexivity|].
    rewrite bind_run.
    destruct (stdout_encodes fl created_line); [|reflexivity].
    cbn [print]. now destruct (stdout_encodes fl hint_line).
  - destruct (cwd_writable w); [|reflexivity].
    destruct (write_stops_after fl); [reflexivity|].
    rewrite bind_run.
    destruct (stdout_encodes fl created_line); [|reflexivity].
    cbn [print]. now destruct (stdout_encodes fl hint_line).
Qed.

End FaultyRuns.

(** When nothing goes wrong on the open files and on standard output, the
    run is [main]. *)
Lemma main_with_no_faults (markdown : string -> list string -> string) (w : world) :
  main_with no_faults markdown w = main markdown w.
Proof. reflexivity. Qed.

Lemma text_of_written (text : string) (r : bool) (w : world) :
  text_of output_path (written text r w) = Some text.
Proof.
  unfold text_of, written. cbn [files set_files]. now rewrite lookup_insert_eq.
Qed.

(** C4, as the specification states it, fails.  The output of an earlier
    run is there and writable, the disk is full: [open] of line 105 has
    emptied the file when the write raises its file-access error, so the
    output is left empty.  It is neither as it was nor the complete
    document, although the buffer is written by one [write]. *)
Lemma failed_write_leaves_neither_old_nor_whole :
  exists w',
    main_with disk_full paragraph_renderer world_with_earlier_output
    = (Raised (OSError output_path), w')
    /\ is_file_access_error (OSError output_path) = true
    /\ text_of output_path world_with_earlier_output = Some "earlier output"
    /\ text_of output_path w' = Some EmptyString
    /\ text_of output_path w' <> text_of output_path world_with_earlier_output
    /\ text_of output_path w'
       <> Some (document (html_content paragraph_renderer "Hello")).
Proof.
  eexists. split; [vm_compute; reflexivity|].
  repeat split; try (vm_compute; reflexivity); vm_compute; discriminate.
Qed.

Section OutputFailures.

Variable fl : faults.
Variable markdown : string -> list string -> string.

(** C4, amended.  With a readable guide that is text, the guide is read
    and rendered and the document is built before the output is opened.
    If the output path cannot be opened for writing, the run then raises a
    file-access error for it and the world, the output file included, is
    exactly as it was.  The write is not atomic: if the output is opened
    and the device stops taking data after [n] characters, the run raises
    a file-access error and the output file holds the first [n] characters
    of the document and nothing of what it held before; nothing is printed
    and no other file changes. *)
Theorem output_failure_after_rendering (w : world) (f : file) :
  files w !! input_path = Some f ->
  readable f = true ->
  text_decodes fl = true ->
  let doc := document (html_content markdown (content f)) in
  with_open input_path ModeR (fun h => read_with fl h) w = (Ok (content f), w)
  /\ styled_html (html_content markdown (content f)) = Ok doc
  /\ (can_write output_path w = false ->
        main_with fl markdown w = (Raised (PermissionError output_path), w)
        /\ main markdown w = (Raised (PermissionError output_path), w)
        /\ is_file_access_error (PermissionError output_path) = true
        /\ exit_status (fst (main_with fl markdown w)) <> 0)
  /\ (forall n : nat,
        can_write output_path w = true ->
        write_stops_after fl = Some n ->
        exists w',
          main_with fl markdown w = (Raised (OSError output_path), w')
          /\ is_file_access_error (OSError output_path) = true
          /\ exit_status (fst (main_with fl markdown w)) <> 0
          /\ text_of output_path w' = Some (String.substring 0 n doc)
          /\ stdout w' = stdout w
          /\ forall path, path <> output_path -> files w' !! path = files w !! path).
Proof.
  intros Hf Hr Ht. cbv zeta.
  split; [now rewrite with_open_read_with, Hf, Hr, Ht|].
  split; [apply styled_html_shell|].
  split.
  - intros Hw. unfold can_write in Hw.
    assert (H1 : main_with fl markdown w = (Raised (PermissionError output_path), w)).
    { rewrite main_with_run, Hf, Hr, Ht. cbv zeta.
      destruct (files w !! output_path) as [g|]; now rewrite Hw. }
    assert (H2 : main markdown w = (Raised (PermissionError output_path), w)).
    { rewrite main_run, Hf, Hr. cbv zeta.
      destruct (files w !! output_path) as [g|]; now rewrite Hw. }
    rewrite H1. repeat split; [exact H2 | cbn; congruence].
  - intros n Hw Hn. unfold can_write in Hw.
    assert (H : exists r, main_with fl markdown w
                = (Raised (OSError output_path),
                   written (String.substring 0 n
                              (document (html_content markdown (content f)))) r w)).
    { rewrite main_with_run, Hf, Hr, Ht. cbv zeta. unfold from_the_write.
      destruct (files w !! output_path) as [g|]; rewrite Hw, Hn; eauto. }
    destruct H as [r H]. eexists. rewrite H.
    split; [reflexivity|]. split; [reflexivity|].
    split; [cbn; congruence|].
    split; [apply text_of_written|]. split; [reflexivity|].
    intros path Hp. unfold written. cbn [files set_files].
    now apply lookup_insert_ne.
Qed.

(** X2.  A run that raises may still have written the output.  If the
    output was written in full and standard output cannot encode a status
    line, the run raises [UnicodeEncodeError] and exits with a status that
    is not zero, while the output file already holds the complete
    document; the lines before the one that cannot be encoded are
    printed, that line and the ones after it are not. *)
Theorem failed_print_leaves_the_output_written (w : world) (f : file) :
  files w !! input_path = Some f ->
  readable f = true ->
  text_decodes fl = true ->
  can_write output_path w = true ->
  write_stops_after fl = None ->
  stdout_encodes fl created_line && stdout_encodes fl hint_line = false ->
  exists w',
    main_with fl markdown w = (Raised UnicodeEncodeError, w')
    /\ exit_status (fst (main_with fl markdown w)) <> 0
    /\ text_of output_path w' = Some (document (html_content markdown (content f)))
    /\ stdout w'
       = stdout w ++ (if stdout_encodes fl created_line then [created_line] else []).
Proof.
  intros Hf Hr Ht Hw Hn Henc. unfold can_write in Hw.
  assert (H : exists r, main_with fl markdown w
              = from_the_write fl (document (html_content markdown (content f))) r w).
  { rewrite main_with_run, Hf, Hr, Ht. cbv zeta.
    destruct (files w !! output_path) as [g|]; rewrite Hw; eauto. }
  destruct H as [r H]. rewrite H. unfold from_the_write. rewrite Hn.
  destruct (stdout_encodes fl created_line).
  - cbn [andb] in Henc. rewrite Henc. eexists.
    split; [reflexivity|]. split; [cbn; congruence|].
    split; [|reflexivity].
    unfold text_of, add_stdout, written. cbn [files set_files].
    now rewrite lookup_insert_eq.
  - eexists. split; [reflexivity|]. split; [cbn; congruence|].
    split; [apply text_of_written|].
    unfold written. cbn [stdout set_files]. now rewrite app_nil_r.
Qed.

(** X3.  The guide is read before the output is opened: if its bytes are
    not text in the platform's encoding, the run raises
    [UnicodeDecodeError], which is not a file-access error, and the world
    is exactly as it was, the output of an earlier run included, also when
    the output could have been written. *)
Theorem undecodable_guide_costs_no_output (w : world) (f : file) :
  files w !! input_path = Some f ->
  readable f = true ->
  text_decodes fl = false ->
  main_with fl markdown w = (Raised UnicodeDecodeError, w)
  /\ is_file_access_error UnicodeDecodeError = false
  /\ exit_status (fst (main_with fl markdown w)) <> 0
  /\ text_of output_path (snd (main_with fl markdown w)) = text_of output_path w.
Proof.
  intros Hf Hr Ht.
  assert (H : main_with fl markdown w = (Raised UnicodeDecodeError, w))
    by now rewrite main_with_run, Hf, Hr, Ht.
  rewrite H. repeat split. cbn. congruence.
Qed.

End OutputFailures.

Lemma output_failure_after_rendering_witness :
  can_write output_path world_with_locked_output = false
  /\ main_with disk_full paragraph_renderer world_with_locked_output
     = (Raised (PermissionError output_path), world_with_locked_output).
Proof.
  split; [vm_compute; reflexivity|].
  refine (proj1 (proj1 (proj2 (proj2
    (output_failure_after_rendering disk_full paragraph_renderer
       world_with_locked_output (File "Hello" true true) _ _ _))) _));
    vm_compute; reflexivity.
Defined.

Lemma failed_print_leaves_the_output_written_witness :
  stdout_encodes ascii_stdout created_line = false
  /\ exists w',
       main_with ascii_stdout paragraph_renderer (fresh_world "Hello")
       = (Raised UnicodeEncodeError, w')
       /\ exit_status (fst (main_with ascii_stdout paragraph_renderer
                              (fresh_world "Hello"))) <> 0
       /\ text_of output_path w' = Some (document "<p>Hello</p>")
       /\ stdout w' = [].
Proof.
  split; [vm_compute; reflexivity|].
  apply (failed_print_leaves_the_output_written ascii_stdout paragraph_renderer
           (fresh_world "Hello") (File "Hello" true true));
    vm_compute; reflexivity.
Defined.

Lemma undecodable_guide_costs_no_output_witness :
  text_decodes undecodable_guide = false
  /\ main_with undecodable_guide paragraph_renderer world_with_earlier_output
     = (Raised UnicodeDecodeError, world_with_earlier_output).
Proof.
  split; [reflexivity|].
  refine (proj1 (undecodable_guide_costs_no_output undecodable_guide
                   paragraph_renderer world_with_earlier_output
                   (File "Hello" true true) _ _ _));
    vm_compute; reflexivity.
Defined.

(* ===================================================================== *)
(** * The renderer's extensions *)
(* ===================================================================== *)

(** C6.  The run renders the guide with exactly the two extensions
    [fenced_code] and [tables]: the output file holds the shell around
    what the renderer returns for the text of the guide and the list of
    these two names, and the outputs of runs with two renderers are the
    same exactly when the renderers return the same for the guide with
    these two extensions on.  What a renderer does with any other list of
    extensions has no effect on the run. *)
Theorem renderer_gets_two_extensions
    (markdown : string -> list string -> string) (w : world) (f : file) :
  files w !! input_path = Some f ->
  readable f = true ->
  can_write output_path w = true ->
  exists w1,
    main markdown w = (Ok tt, w1)
    /\ text_of output_path w1
       = Some (Template.shell_head
               +:+ markdown (content f) ["fenced_code"; "tables"]
               +:+ Template.shell_tail)
    /\ forall (other : string -> list string -> string) (w2 : world),
         main other w = (Ok tt, w2) ->
         (text_of output_path w2 = text_of output_path w1
          <-> other (content f) ["fenced_code"; "tables"]
              = markdown (content f) ["fenced_code"; "tables"]).
Proof.
  intros Hf Hr Hw.
  destruct (main_writes_document markdown w f Hf Hr Hw) as [r Hmain].
  eexists. split; [exact Hmain|].
  split; [apply text_of_after_success|].
  intros other w2 Hother.
  destruct (main_writes_document other w f Hf Hr Hw) as [r2 Hmain2].
  rewrite Hmain2 in Hother. apply (f_equal snd) in Hother. cbn [snd] in Hother.
  subst w2. rewrite !text_of_after_success.
  change extensions with ["fenced_code"; "tables"]. unfold document.
  split.
  - intros H. apply (inj Some) in H.
    apply (inj (String.append Template.shell_head)) in H.
    now apply append_cancel_r in H.
  - now intros ->.
Qed.

Lemma renderer_gets_two_extensions_witness :
  picky_renderer "x" [] = "x"
  /\ picky_renderer "x" ["fenced_code"; "tables"; "footnotes"] = "x"
  /\ exists w1,
       main picky_renderer (fresh_world "x") = (Ok tt, w1)
       /\ text_of output_path w1
          = Some (Template.shell_head +:+ "<p>x</p>" +:+ Template.shell_tail).
Proof.
  split; [reflexivity|]. split; [reflexivity|].
  destruct (renderer_gets_two_extensions picky_renderer (fresh_world "x")
              (File "x" true true))
    as (w1 & Hmain & Hout & _); [vm_compute; reflexivity | reflexivity
                                 | vm_compute; reflexivity |].
  exists w1. split; [exact Hmain|]. exact Hout.
Defined.
